(** * The publish helper [git.py]: staging, committing and pushing a site

    A shallow embedding of the script.  The script is a straight line of
    calls to the [git] executable, with early exits through [sys.exit];
    it is modelled in a state-and-exit monad over

    - a [Platform]: the world the subprocesses run in and the argparse
      library, kept abstract, so that every theorem holds for every
      behaviour of the external tool and of the parser;
    - a trace of observable events: lines printed on standard output and
      standard error, and the subprocesses executed, in order.

    Text is a [string] of bytes (decoded UTF-8).  The model assumes the
    [git] executable can be started and that its output decodes; the
    uncaught exceptions of those two cases are outside it.  Events are
    in the order of the calls that produce them.  [exit_status] is the
    argument of [sys.exit], or 0 when [main] returns; [process_status]
    is what the parent process reads of it. *)

From Stdlib Require Import String Ascii List ZArith Bool DecimalString Lia.
Import ListNotations.
Local Open Scope string_scope.
Local Open Scope Z_scope.

(** ** Python's string helpers *)

Module Py.

Definition nl : string := String (ascii_of_nat 10) EmptyString.

(** [sep.join(parts)] *)
Definition join (sep : string) (parts : list string) : string :=
  String.concat sep parts.

(** The ASCII characters for which [str.isspace] holds: tab, line feed,
    vertical tab, form feed, carriage return, the four separators
    0x1c..0x1f and the space. *)
Definition isspace (c : ascii) : bool :=
  let n := nat_of_ascii c in
  ((9 <=? n)%nat && (n <=? 13)%nat) || ((28 <=? n)%nat && (n <=? 32)%nat).

Fixpoint lstrip (s : string) : string :=
  match s with
  | EmptyString => EmptyString
  | String c s' => if isspace c then lstrip s' else s
  end.

Fixpoint rstrip (s : string) : string :=
  match s with
  | EmptyString => EmptyString
  | String c s' =>
      match rstrip s' with
      | EmptyString => if isspace c then EmptyString else String c EmptyString
      | r => String c r
      end
  end.

(** [s.strip()] *)
Definition strip (s : string) : string := rstrip (lstrip s).

(** [s.startswith(p)] *)
Definition startswith (s p : string) : bool := String.prefix p s.

(** Truth value of a string: [not s] holds for the empty string. *)
Definition truthy (s : string) : bool :=
  match s with EmptyString => false | String _ _ => true end.

End Py.

(** ** Module constants (git.py, lines 18-22) *)

Definition REPO_OWNER : string := "Ravi-Chandra24".
Definition REPO_NAME : string := "Ask-her-Out".
Definition FILES : list string :=
  ["index.html"; "ask_her_out.html"; "schedule.html"; "git.py"].
Definition COMMIT_MSG : string := "Prepare site for GitHub Pages".

(** ** Subprocesses and events *)

(** What the script reads of a finished subprocess: its exit status and
    the text it captured on the pipe it asked for ([check_output] merges
    standard error into it, [subprocess.run] reads standard output;
    [check_call] captures nothing and never reads [output]). *)
Record CompletedProcess : Type := mkProcess {
  returncode : Z;
  output : string
}.

(** Observable events, in the order they happen. *)
Inductive event : Type :=
| Stdout (line : string)                          (* print(...) *)
| Stderr (line : string)                          (* print(..., file=sys.stderr) *)
| Exec (cmd : list string) (p : CompletedProcess) (* a subprocess ran *)
| ArgparseMessage (code : Z).                     (* argparse wrote its help (standard output) or
                                                     its usage and error (standard error) *)

(** ** Command-line arguments (git.py, parse_args) *)

(** The namespace [parse_args] returns. *)
Record Namespace : Type := mkNamespace {
  message : string;
  all : bool;
  no_push : bool;
  remote : string;
  branch : string;
  dry_run : bool
}.

(** The defaults of the declarations: [default=COMMIT_MSG],
    [default="origin"], [default="main"], and [False] for the three
    [store_true] flags. *)
Definition default_namespace : Namespace :=
  {| message := COMMIT_MSG; all := false; no_push := false;
     remote := "origin"; branch := "main"; dry_run := false |}.

(** The actions registered by the [add_argument] calls, and the help
    action every [ArgumentParser] has. *)
Inductive action : Type :=
| StoreMessage | StoreTrueAll | StoreTrueNoPush
| StoreRemote | StoreBranch | StoreTrueDryRun | HelpAction.

(** The option strings of the declarations, each with its action. *)
Definition option_strings : list (string * action) :=
  [ ("-h", HelpAction); ("--help", HelpAction);
    ("-m", StoreMessage); ("--message", StoreMessage);
    ("--all", StoreTrueAll);
    ("--no-push", StoreTrueNoPush);
    ("--remote", StoreRemote);
    ("--branch", StoreBranch);
    ("--dry-run", StoreTrueDryRun) ].

(** The actions that store the value given with the option. *)
Definition takes_value (a : action) : bool :=
  match a with
  | StoreMessage | StoreRemote | StoreBranch => true
  | _ => false
  end.

(** The effect of an action that stores a value, on its [dest]. *)
Definition store (a : action) (v : string) (ns : Namespace) : Namespace :=
  match a with
  | StoreMessage =>
      {| message := v; all := all ns; no_push := no_push ns;
         remote := remote ns; branch := branch ns; dry_run := dry_run ns |}
  | StoreRemote =>
      {| message := message ns; all := all ns; no_push := no_push ns;
         remote := v; branch := branch ns; dry_run := dry_run ns |}
  | StoreBranch =>
      {| message := message ns; all := all ns; no_push := no_push ns;
         remote := remote ns; branch := v; dry_run := dry_run ns |}
  | _ => ns
  end.

(** The effect of a [store_true] action, on its [dest]. *)
Definition store_true (a : action) (ns : Namespace) : Namespace :=
  match a with
  | StoreTrueAll =>
      {| message := message ns; all := true; no_push := no_push ns;
         remote := remote ns; branch := branch ns; dry_run := dry_run ns |}
  | StoreTrueNoPush =>
      {| message := message ns; all := all ns; no_push := true;
         remote := remote ns; branch := branch ns; dry_run := dry_run ns |}
  | StoreTrueDryRun =>
      {| message := message ns; all := all ns; no_push := no_push ns;
         remote := remote ns; branch := branch ns; dry_run := true |}
  | _ => ns
  end.

(** What the call of [p.parse_args()] ends with: the namespace, or the
    exit of argparse (status 0 after the help, 2 after an error). *)
Inductive parse_result : Type :=
| Parsed (args : Namespace)
| ParserExit (code : Z).

(** The text of a token before its first "=", and the text after it. *)
Fixpoint split_eq (s : string) : string * option string :=
  match s with
  | EmptyString => (EmptyString, None)
  | String c s' =>
      if Ascii.eqb c "="%char then (EmptyString, Some s')
      else let (n, v) := split_eq s' in (String c n, v)
  end.

(** The token may stand for the option string [opt]: it begins with it
    (the option itself, [-mVALUE], [--message=VALUE]), or what it holds
    before its first "=" abbreviates it ([--mess], [--mess=VALUE]). *)
Definition may_select (tok opt : string) : bool :=
  Py.startswith tok opt || Py.startswith opt (fst (split_eq tok)).

(** The field an action fills holds the default of its declaration. *)
Definition at_default (a : action) (ns : Namespace) : Prop :=
  match a with
  | StoreMessage => message ns = message default_namespace
  | StoreTrueAll => all ns = all default_namespace
  | StoreTrueNoPush => no_push ns = no_push default_namespace
  | StoreRemote => remote ns = remote default_namespace
  | StoreBranch => branch ns = branch default_namespace
  | StoreTrueDryRun => dry_run ns = dry_run default_namespace
  | HelpAction => True
  end.

(** ** The platform *)

(** The collaborators of the script, none of which is code of the
    repository: the world in which [git] runs and the effect of running
    one command line in it; the text Python gives a [CalledProcessError]
    ([str(e)]); and argparse, that is, what [p.parse_args()] ends with
    for the parser declared above.  Of argparse one fact is used: in the
    namespace it returns, an argument that no token of the command line
    may select is left at its declared default. *)
Class Platform : Type := {
  World : Type;
  subprocess : list string -> World -> CompletedProcess * World;
  CalledProcessError_str : list string -> Z -> string;
  ArgumentParser_parse_args : list string -> parse_result;
  parse_args_defaults :
    forall (argv : list string) (ns : Namespace) (a : action),
      ArgumentParser_parse_args argv = Parsed ns ->
      (forall tok opt,
         In tok argv -> In (opt, a) option_strings -> may_select tok opt = false) ->
      at_default a ns
}.

(** ** The state-and-exit monad *)

(** A computation ends normally or raises [SystemExit]. *)
Inductive outcome (A : Type) : Type :=
| Normal (a : A)
| SystemExit (code : Z).
Arguments Normal {A} a.
Arguments SystemExit {A} code.

Section Script.

Context {platform : Platform}.

Record state : Type := mkState {
  world : World;
  trace : list event
}.

Definition M (A : Type) : Type := state -> outcome A * state.

Definition ret {A} (a : A) : M A := fun s => (Normal a, s).

Definition bind {A B} (m : M A) (k : A -> M B) : M B :=
  fun s =>
    match m s with
    | (Normal a, s') => k a s'
    | (SystemExit code, s') => (SystemExit code, s')
    end.

Notation "x <- m ;; k" := (bind m (fun x => k))
  (at level 61, m at next level, right associativity).
Notation "m ;; k" := (bind m (fun _ => k))
  (at level 61, right associativity).

Definition emit (e : event) : M unit :=
  fun s => (Normal tt, {| world := world s; trace := trace s ++ [e] |}).

(** [print(a, b, ...)]: the arguments separated by one space. *)
Definition print (args : list string) : M unit :=
  emit (Stdout (Py.join " " args)).

Definition print_stderr (args : list string) : M unit :=
  emit (Stderr (Py.join " " args)).

(** [sys.exit(code)] *)
Definition sys_exit {A} (code : Z) : M A := fun s => (SystemExit code, s).

(** Starting [cmd] and waiting for it: the common core of
    [subprocess.run], [check_call] and [check_output]. *)
Definition spawn (cmd : list string) : M CompletedProcess :=
  fun s =>
    let (p, w) := subprocess cmd (world s) in
    (Normal p, {| world := w; trace := trace s ++ [Exec cmd p] |}).

(** ** The script *)

(** [run(cmd, check=True, capture=False)] (git.py, lines 25-42).
    [check_call] raises [CalledProcessError] with [e.output = None], so
    decoding it fails and the report falls back on [str(e)];
    [check_output] raises it with the captured text. *)
Definition run (cmd : list string) (check capture : bool) : M (option string) :=
  print ["$"; Py.join " " cmd] ;;
  p <- spawn cmd ;;
  if returncode p =? 0 then
    ret (if capture then Some (Py.strip (output p)) else None)
  else
    let out := if capture then output p
               else CalledProcessError_str cmd (returncode p) in
    print_stderr ["Command failed:"; out] ;;
    if check then sys_exit (returncode p) else ret None.

Definition rev_parse_cmd : list string :=
  ["git"; "rev-parse"; "--is-inside-work-tree"].

(** [inside_git_repo()] (lines 45-48) *)
Definition inside_git_repo : M bool :=
  p <- spawn rev_parse_cmd ;;
  ret (returncode p =? 0).

Definition get_url_cmd : list string := ["git"; "remote"; "get-url"; "origin"].

Definition ssh_url : string :=
  "git@github.com:" ++ REPO_OWNER ++ "/" ++ REPO_NAME ++ ".git".

Definition remote_add_cmd : list string :=
  ["git"; "remote"; "add"; "origin"; ssh_url].

(** [ensure_origin()] (lines 51-63) *)
Definition ensure_origin : M bool :=
  p <- spawn get_url_cmd ;;
  if returncode p =? 0 then
    let url := Py.strip (output p) in
    print ["origin remote configured:"; url] ;;
    ret true
  else
    print ["No origin remote found. Adding origin ->"; ssh_url] ;;
    run remote_add_cmd true false ;;
    ret true.

Definition add_cmd (args : Namespace) : list string :=
  if all args then ["git"; "add"; "-A"] else ["git"; "add"] ++ FILES.

Definition diff_cmd : list string := ["git"; "diff"; "--cached"; "--name-only"].

Definition commit_cmd (args : Namespace) : list string :=
  ["git"; "commit"; "-m"; message args].

Definition push_cmd (args : Namespace) : list string :=
  ["git"; "push"; remote args; branch args].

(** [parse_args()] (lines 66-75), on the arguments after the program
    name: argparse, run on the parser declared above. *)
Definition parse_args (argv : list string) : parse_result :=
  ArgumentParser_parse_args argv.

(** [args = parse_args()]: argparse leaves through [SystemExit] after
    printing its help or its error. *)
Definition parse_args_or_exit (argv : list string) : M Namespace :=
  match parse_args argv with
  | Parsed args => ret args
  | ParserExit code => emit (ArgparseMessage code) ;; sys_exit code
  end.

(** [main()] (lines 78-113), on the arguments after the program name. *)
Definition main (argv : list string) : M unit :=
  inside <- inside_git_repo ;;
  if negb inside then
    print ["This directory is not a git repository. Initialize or run from repo root."] ;;
    sys_exit 1
  else
    args <- parse_args_or_exit argv ;;
    run (add_cmd args) true false ;;
    staged <- run diff_cmd true true ;;
    (match staged with
     | Some s =>
         if negb (Py.truthy s) then print ["No staged changes to commit."]
         else
           print ["Staged files:" ++ Py.nl; s] ;;
           if dry_run args then
             print ["Dry-run: would commit with message:" ++ Py.nl; message args]
           else
             run (commit_cmd args) true false ;; ret tt
     | None => print ["No staged changes to commit."]
     end) ;;
    ensure_origin ;;
    if no_push args then print ["--no-push set: skipping push step."]
    else
      print ["Pushing to " ++ remote args ++ " " ++ branch args ++ "..."] ;;
      if dry_run args then print ["Dry-run: would run push command"]
      else run (push_cmd args) true false ;; ret tt.

(** ** Running the script *)

Definition initial (w : World) : state := {| world := w; trace := [] |}.

(** The argument of the [sys.exit] that ends the run, 0 when [main]
    returns. *)
Definition exit_status {A} (r : outcome A * state) : Z :=
  match fst r with
  | Normal _ => 0
  | SystemExit code => code
  end.

(** The exit status the parent of the process reads: the low eight bits
    of that argument (127 for -129, 247 for -9). *)
Definition process_status {A} (r : outcome A * state) : Z :=
  exit_status r mod 256.

Definition events {A} (r : outcome A * state) : list event := trace (snd r).

Definition launch (argv : list string) (w : World) : outcome unit * state :=
  main argv (initial w).

End Script.

(** ** Reading a trace *)

Fixpoint starts_with (prefix cmd : list string) : bool :=
  match prefix, cmd with
  | [], _ => true
  | x :: prefix', y :: cmd' => String.eqb x y && starts_with prefix' cmd'
  | _ :: _, [] => false
  end.

(** The eight operations of the external tool, recognised by the leading
    words of the command line. *)
Definition is_repo_check : list string -> bool := starts_with ["git"; "rev-parse"].
Definition is_stage : list string -> bool := starts_with ["git"; "add"].
Definition is_staged_query : list string -> bool := starts_with ["git"; "diff"].
Definition is_commit : list string -> bool := starts_with ["git"; "commit"].
Definition is_remote_query : list string -> bool := starts_with ["git"; "remote"; "get-url"].
Definition is_remote_add : list string -> bool := starts_with ["git"; "remote"; "add"].
Definition is_push : list string -> bool := starts_with ["git"; "push"].

(** The operations that change the repository or the hosting service. *)
Definition mutating (cmd : list string) : bool :=
  is_stage cmd || is_commit cmd || is_remote_add cmd || is_push cmd.

Definition failed (p : CompletedProcess) : bool := negb (returncode p =? 0).

(** Some command of the kind [kind] was executed. *)
Definition executed (kind : list string -> bool) (tr : list event) : bool :=
  existsb (fun e => match e with Exec cmd _ => kind cmd | _ => false end) tr.

(** Some command of the kind [kind] was executed and exited non-zero. *)
Definition executed_failing (kind : list string -> bool) (tr : list event) : bool :=
  existsb (fun e => match e with Exec cmd p => kind cmd && failed p | _ => false end) tr.

(** The commands executed, in order, with their exit statuses. *)
Fixpoint commands (tr : list event) : list (list string * Z) :=
  match tr with
  | [] => []
  | Exec cmd p :: tr' => (cmd, returncode p) :: commands tr'
  | _ :: tr' => commands tr'
  end.

(** The exit status of the first command that exited non-zero. *)
Fixpoint first_failing_status (tr : list event) : option Z :=
  match tr with
  | [] => None
  | Exec _ p :: tr' => if failed p then Some (returncode p) else first_failing_status tr'
  | _ :: tr' => first_failing_status tr'
  end.

(** What [main] receives from the staged-changes query: the stripped
    output of the query when it ran and exited with status 0. *)
Fixpoint staged_result (tr : list event) : option string :=
  match tr with
  | [] => None
  | Exec cmd p :: tr' =>
      if is_staged_query cmd
      then (if failed p then None else Some (Py.strip (output p)))
      else staged_result tr'
  | _ :: tr' => staged_result tr'
  end.

(** The line [run] prints before it starts [cmd]. *)
Definition echo (cmd : list string) : string := "$ " ++ Py.join " " cmd.

(** ** A small parser standing in for argparse

    Used to run the script on concrete command lines: it knows the
    option strings as they are declared and the form [--name=value],
    and refuses everything else. *)

Module SimpleArgparse.

Inductive token : Type :=
| Opt (a : action) (explicit : option string)   (* an option, maybe with =value *)
| Extra.                                        (* anything else *)

Definition exact_option (name : string) : option action :=
  match find (fun oa => String.eqb (fst oa) name) option_strings with
  | Some oa => Some (snd oa)
  | None => None
  end.

Definition classify (tok : string) : token :=
  if negb (Py.startswith tok "-") then Extra
  else match exact_option tok with
  | Some a => Opt a None
  | None =>
      match split_eq tok with
      | (name, Some v) =>
          match exact_option name with
          | Some a => Opt a (Some v)
          | None => Extra
          end
      | (_, None) => Extra
      end
  end.

(** The tokens from left to right.  An option that stores a value takes
    its [=value] part or the next token, refused when it starts with a
    dash; the help ends the parse with status 0; a store-true option
    with a value, a missing value and any unknown token end it with
    status 2. *)
Fixpoint parse_loop (argv : list string) (ns : Namespace) (extras : bool)
  : parse_result :=
  match argv with
  | [] => if extras then ParserExit 2 else Parsed ns
  | tok :: rest =>
      match classify tok with
      | Extra => parse_loop rest ns true
      | Opt HelpAction None => ParserExit 0
      | Opt a (Some v) =>
          if takes_value a then parse_loop rest (store a v ns) extras
          else ParserExit 2
      | Opt a None =>
          if takes_value a then
            match rest with
            | v :: rest' =>
                if Py.startswith v "-" && negb (String.eqb v "-")
                then ParserExit 2
                else parse_loop rest' (store a v ns) extras
            | [] => ParserExit 2
            end
          else parse_loop rest (store_true a ns) extras
      end
  end.

Definition parse (argv : list string) : parse_result :=
  parse_loop argv default_namespace false.

Lemma prefix_refl : forall s, String.prefix s s = true.
Proof.
  induction s as [| c s IH]; [ reflexivity | ].
  cbn. destruct (ascii_dec c c) as [_ | Hne]; [ exact IH | congruence ].
Qed.

Lemma exact_option_declared :
  forall name a, exact_option name = Some a -> In (name, a) option_strings.
Proof.
  intros name a. unfold exact_option.
  destruct (find _ option_strings) as [[opt a'] |] eqn:Hfind; [ | discriminate ].
  intros H. inversion H; subst.
  apply find_some in Hfind. destruct Hfind as [Hin Heq].
  cbn in Heq. apply String.eqb_eq in Heq. subst. exact Hin.
Qed.

(** A token read as an option may select one of its option strings. *)
Lemma classify_selects :
  forall tok a explicit,
    classify tok = Opt a explicit ->
    exists opt, In (opt, a) option_strings /\ may_select tok opt = true.
Proof.
  intros tok a explicit. unfold classify.
  destruct (negb (Py.startswith tok "-")); [ discriminate | ].
  destruct (exact_option tok) as [a' |] eqn:Hexact.
  - intros H. inversion H; subst. exists tok. split.
    + apply exact_option_declared. exact Hexact.
    + unfold may_select, Py.startswith. rewrite prefix_refl. reflexivity.
  - destruct (split_eq tok) as [name [v |]] eqn:Hsplit; [ | discriminate ].
    destruct (exact_option name) as [a' |] eqn:Hname; [ | discriminate ].
    intros H. inversion H; subst. exists name. split.
    + apply exact_option_declared. exact Hname.
    + unfold may_select, Py.startswith. rewrite Hsplit. cbn [fst].
      rewrite prefix_refl. apply orb_true_r.
Qed.

Lemma store_keeps_default :
  forall a a' v ns, a' <> a -> at_default a ns -> at_default a (store a' v ns).
Proof. intros a a' v ns Hne; destruct a, a'; cbn; intros H; congruence || exact H. Qed.

Lemma store_true_keeps_default :
  forall a a' ns, a' <> a -> at_default a ns -> at_default a (store_true a' ns).
Proof. intros a a' ns Hne; destruct a, a'; cbn; intros H; congruence || exact H. Qed.

(** An argument that no token may select keeps the value it had when
    the walk began.  By induction on a bound of the number of tokens,
    since an option with a value consumes two. *)
Lemma parse_loop_defaults (a : action) (n : nat) :
  forall argv ns extras args,
    (length argv <= n)%nat ->
    parse_loop argv ns extras = Parsed args ->
    at_default a ns ->
    (forall tok opt,
       In tok argv -> In (opt, a) option_strings -> may_select tok opt = false) ->
    at_default a args.
Proof.
  induction n as [| n IH]; intros argv ns extras args Hlen Hparse Hns Hsel.
  - destruct argv as [| tok rest]; [ | cbn in Hlen; lia ].
    cbn in Hparse. destruct extras; [ discriminate | ].
    inversion Hparse; subst. exact Hns.
  - destruct argv as [| tok rest].
    + cbn in Hparse. destruct extras; [ discriminate | ].
      inversion Hparse; subst. exact Hns.
    + cbn [length] in Hlen. cbn [parse_loop] in Hparse.
      assert (Hrest : forall t opt, In t rest -> In (opt, a) option_strings ->
                                    may_select t opt = false).
      { intros t opt Ht. apply Hsel. right. exact Ht. }
      destruct (classify tok) as [a' explicit |] eqn:Hclass.
      * assert (Hne : a' <> a).
        { intros ->. destruct (classify_selects _ _ _ Hclass) as [opt [Hin Hmay]].
          rewrite (Hsel tok opt (or_introl eq_refl) Hin) in Hmay. discriminate. }
        destruct explicit as [v |].
        -- destruct (takes_value a') eqn:Ha.
           ++ assert (Hgo : parse_loop rest (store a' v ns) extras = Parsed args)
                by (destruct a'; try discriminate; exact Hparse).
              eapply IH; [ | exact Hgo | apply store_keeps_default; assumption | exact Hrest ].
              lia.
           ++ destruct a'; discriminate.
        -- destruct (takes_value a') eqn:Ha.
           ++ destruct rest as [| v rest']; [ destruct a'; discriminate | ].
              destruct (Py.startswith v "-" && negb (String.eqb v "-"));
                [ destruct a'; discriminate | ].
              assert (Hgo : parse_loop rest' (store a' v ns) extras = Parsed args)
                by (destruct a'; try discriminate; exact Hparse).
              cbn [length] in Hlen.
              eapply IH; [ | exact Hgo | apply store_keeps_default; assumption | ].
              ** lia.
              ** intros t opt Ht. apply Hrest. right. exact Ht.
           ++ assert (Hgo : parse_loop rest (store_true a' ns) extras = Parsed args)
                by (destruct a'; try discriminate; exact Hparse).
              eapply IH; [ | exact Hgo | apply store_true_keeps_default; assumption | exact Hrest ].
              lia.
      * eapply IH; [ | exact Hparse | exact Hns | exact Hrest ]. lia.
Qed.

(** The fact the script uses of argparse holds of the stand-in. *)
Lemma parse_defaults :
  forall (argv : list string) (ns : Namespace) (a : action),
    parse argv = Parsed ns ->
    (forall tok opt,
       In tok argv -> In (opt, a) option_strings -> may_select tok opt = false) ->
    at_default a ns.
Proof.
  intros argv ns a Hparse Hsel.
  apply (parse_loop_defaults a (length argv) argv default_namespace false ns);
    [ lia | exact Hparse | destruct a; reflexivity || exact I | exact Hsel ].
Qed.

End SimpleArgparse.

(** ** A scripted stand-in for the external tool

    A small repository state and the effect of the eight operations on
    it, used to run the script on concrete inputs. *)

Module FakeGit.

Record repo : Type := mkRepo {
  is_repo : bool;
  changed : list string;              (* modified files of the work tree *)
  index : list string;                (* staged file names *)
  remotes : list (string * string);   (* remote name, URL *)
  add_status : Z;                     (* exit statuses the tool is scripted to give *)
  commit_status : Z;
  remote_add_status : Z;
  push_status : Z
}.

Definition ok (out : string) : CompletedProcess := {| returncode := 0; output := out |}.
Definition ko (rc : Z) (out : string) : CompletedProcess := {| returncode := rc; output := out |}.

Definition mem (x : string) (l : list string) : bool := existsb (String.eqb x) l.

Definition with_index (r : repo) (ch idx : list string) : repo :=
  {| is_repo := is_repo r; changed := ch; index := idx; remotes := remotes r;
     add_status := add_status r; commit_status := commit_status r;
     remote_add_status := remote_add_status r; push_status := push_status r |}.

Definition with_remote (r : repo) (name url : string) : repo :=
  {| is_repo := is_repo r; changed := changed r; index := index r;
     remotes := (name, url) :: remotes r;
     add_status := add_status r; commit_status := commit_status r;
     remote_add_status := remote_add_status r; push_status := push_status r |}.

Fixpoint lookup (name : string) (l : list (string * string)) : option string :=
  match l with
  | [] => None
  | (n, u) :: l' => if String.eqb n name then Some u else lookup name l'
  end.

Definition lines (l : list string) : string :=
  String.concat "" (map (fun f => f ++ Py.nl) l).

Definition git (cmd : list string) (r : repo) : CompletedProcess * repo :=
  if negb (is_repo r) then (ko 128 "fatal: not a git repository", r)
  else if is_repo_check cmd then (ok ("true" ++ Py.nl), r)
  else if is_stage cmd then
    if negb (add_status r =? 0) then (ko (add_status r) "fatal: pathspec did not match", r)
    else match cmd with
    | [_; _; "-A"] => (ok "", with_index r [] (index r ++ changed r))
    | _ :: _ :: files =>
        (ok "", with_index r (filter (fun f => negb (mem f files)) (changed r))
                             (index r ++ filter (fun f => mem f files) (changed r)))
    | _ => (ko 129 "usage", r)
    end
  else if is_staged_query cmd then (ok (lines (index r)), r)
  else if is_commit cmd then
    match index r with
    | [] => (ko 1 "nothing to commit", r)
    | _ => if commit_status r =? 0 then (ok "", with_index r (changed r) [])
           else (ko (commit_status r) "commit refused", r)
    end
  else if is_remote_query cmd then
    match cmd with
    | [_; _; _; name] =>
        match lookup name (remotes r) with
        | Some url => (ok (url ++ Py.nl), r)
        | None => (ko 2 "error: No such remote", r)
        end
    | _ => (ko 129 "usage", r)
    end
  else if is_remote_add cmd then
    match cmd with
    | [_; _; _; name; url] =>
        match lookup name (remotes r) with
        | Some _ => (ko 3 "error: remote already exists", r)
        | None =>
            if remote_add_status r =? 0 then (ok "", with_remote r name url)
            else (ko (remote_add_status r) "error: could not lock config file", r)
        end
    | _ => (ko 129 "usage", r)
    end
  else if is_push cmd then
    if push_status r =? 0 then (ok "", r) else (ko (push_status r) "fatal: could not push", r)
  else (ko 1 "git: not a git command", r).

(** [str(e)] of a [CalledProcessError], for arguments without quotes
    or backslashes and a positive exit status. *)
Definition describe (cmd : list string) (rc : Z) : string :=
  "Command '[" ++ Py.join ", " (map (fun a => "'" ++ a ++ "'") cmd)
  ++ "]' returned non-zero exit status "
  ++ NilZero.string_of_int (Z.to_int rc) ++ ".".

#[export] Instance platform : Platform :=
  {| World := repo; subprocess := git; CalledProcessError_str := describe;
     ArgumentParser_parse_args := SimpleArgparse.parse;
     parse_args_defaults := SimpleArgparse.parse_defaults |}.

(** A fresh repository with two modified site files and no remote. *)
Definition fresh : repo :=
  {| is_repo := true; changed := ["index.html"; "schedule.html"]; index := [];
     remotes := []; add_status := 0; commit_status := 0;
     remote_add_status := 0; push_status := 0 |}.

(** A clean repository whose remote [origin] exists. *)
Definition clean : repo :=
  {| is_repo := true; changed := []; index := [];
     remotes := [("origin", "git@github.com:Ravi-Chandra24/Ask-her-Out.git")];
     add_status := 0; commit_status := 0; remote_add_status := 0;
     push_status := 0 |}.

(** A directory outside any repository. *)
Definition outside : repo :=
  {| is_repo := false; changed := []; index := []; remotes := [];
     add_status := 0; commit_status := 0; remote_add_status := 0;
     push_status := 0 |}.

(** The same repository, where pushing is refused with status [rc]. *)
Definition with_push_status (r : repo) (rc : Z) : repo :=
  {| is_repo := is_repo r; changed := changed r; index := index r;
     remotes := remotes r; add_status := add_status r;
     commit_status := commit_status r;
     remote_add_status := remote_add_status r; push_status := rc |}.

(** The same repository, where registering a remote is refused. *)
Definition with_remote_add_status (r : repo) (rc : Z) : repo :=
  {| is_repo := is_repo r; changed := changed r; index := index r;
     remotes := remotes r; add_status := add_status r;
     commit_status := commit_status r;
     remote_add_status := rc; push_status := push_status r |}.

End FakeGit.

(** ** What the claims read in a run *)

(** The repository check succeeds in the world [w]. *)
Definition inside_work_tree {platform : Platform} (w : World) : bool :=
  returncode (fst (subprocess rev_parse_cmd w)) =? 0.

(** A failure that ends the run: a non-zero exit of a command started
    through [run] with [check=True], that is, of any command but the
    repository check and the remote-URL query. *)
Definition fatal (cmd : list string) (p : CompletedProcess) : bool :=
  failed p && negb (is_repo_check cmd) && negb (is_remote_query cmd).

(** The first fatal failure of a trace, with the events after it. *)
Fixpoint first_fatal (tr : list event)
  : option (list string * CompletedProcess * list event) :=
  match tr with
  | [] => None
  | Exec cmd p :: tr' => if fatal cmd p then Some (cmd, p, tr') else first_fatal tr'
  | _ :: tr' => first_fatal tr'
  end.

(** The line [run] prints on standard error for a failed command: the
    captured output where [run] captured it (the staged-changes query),
    the description of the error otherwise. *)
Definition failure_report {platform : Platform}
    (cmd : list string) (p : CompletedProcess) : string :=
  "Command failed: " ++
  (if is_staged_query cmd then output p
   else CalledProcessError_str cmd (returncode p)).

(** Every executed command outside [direct] comes right after the line
    that echoes it. *)
Fixpoint echoed_from (direct : list string -> bool)
    (prev : option event) (tr : list event) : Prop :=
  match tr with
  | [] => True
  | e :: tr' =>
      match e with
      | Exec cmd _ => direct cmd = true \/ prev = Some (Stdout (echo cmd))
      | _ => True
      end /\ echoed_from direct (Some e) tr'
  end.

Definition echoed (direct : list string -> bool) (tr : list event) : Prop :=
  echoed_from direct None tr.

(** The two commands the script starts with [subprocess.run] itself. *)
Definition direct_call (cmd : list string) : bool :=
  is_repo_check cmd || is_remote_query cmd.

(** ** What the further properties read *)

(** The text is made of whitespace only (the empty text included). *)
Fixpoint only_whitespace (s : string) : bool :=
  match s with
  | EmptyString => true
  | String c s' => Py.isspace c && only_whitespace s'
  end.

(** The place of a command in the pipeline of [main]. *)
Definition rank (cmd : list string) : nat :=
  if is_repo_check cmd then 0
  else if is_stage cmd then 1
  else if is_staged_query cmd then 2
  else if is_commit cmd then 3
  else if is_remote_query cmd then 4
  else if is_remote_add cmd then 5
  else if is_push cmd then 6
  else 7.

Fixpoint ascending (l : list nat) : bool :=
  match l with
  | a :: (b :: _) as l' => (a <? b)%nat && ascending l'
  | _ => true
  end.

(** The ranks of the commands of a trace, in the order of execution. *)
Definition ranks (tr : list event) : list nat :=
  map (fun c => rank (fst c)) (commands tr).

Ltac unfold_script :=
  unfold launch, main, inside_git_repo, ensure_origin, parse_args_or_exit,
    run, spawn, print, print_stderr, emit, sys_exit, bind, ret, initial,
    inside_work_tree, add_cmd, commit_cmd, push_cmd.

(** One step of the case analysis along the script: the next subprocess,
    its exit status, a flag, or the text of the staged-changes query. *)
Ltac script_step :=
  match goal with
  | H : ?b = true |- context [if ?b then _ else _] => rewrite H
  | H : ?b = false |- context [if ?b then _ else _] => rewrite H
  | H : parse_args ?a = _ |- context [parse_args ?a] => rewrite H
  | |- context [parse_args ?a] => destruct (parse_args a) eqn:?
  | |- context [subprocess ?c ?w] =>
      let p := fresh "p" in let w' := fresh "w" in
      destruct (subprocess c w) as [p w'] eqn:?
  | |- context [returncode ?p =? 0] =>
      destruct (returncode p =? 0) eqn:?
  | |- context [Py.truthy ?s] => destruct s eqn:?; unfold Py.truthy
  | |- context [if ?b then _ else _] =>
      match b with
      | all _ => destruct b eqn:?
      | dry_run _ => destruct b eqn:?
      | no_push _ => destruct b eqn:?
      end
  end.

(** Between two steps only the pairs and the projections are reduced;
    the reading of the trace is left for the leaves. *)
Ltac light := cbv beta iota zeta delta [fst snd world trace negb].

Ltac run_script := unfold_script; repeat (light; script_step); cbn.

(** The same analysis with the run named first, so that the goal holds
    the script once however often the statement mentions the run. *)
Ltac run_named :=
  match goal with
  | |- context [launch ?argv ?w] =>
      let r := fresh "r" in
      let Hr := fresh "Hr" in
      remember (launch argv w) as r eqn:Hr; revert Hr
  end;
  unfold_script; repeat (light; script_step);
  intros ->; cbn.

(** At a leaf of the case analysis: what is known of the exit statuses
    and of the staged-changes text, used in the reading of the trace. *)
Ltac leaf :=
  cbn; unfold fatal, failed; cbn;
  repeat match goal with
         | H : (returncode ?p =? 0) = _ |- context [returncode ?p =? 0] => rewrite H; cbn
         | H : Py.strip (output ?p) = _ |- context [Py.strip (output ?p)] => rewrite H; cbn
         end.

(** Exit statuses as propositions, and the two names of one subprocess
    result identified. *)
Ltac tidy :=
  repeat match goal with
         | H : (_, _) = (_, _) |- _ => inversion H; subst; clear H
         | H : (_ =? _) = true |- _ => apply Z.eqb_eq in H
         | H : (_ =? _) = false |- _ => apply Z.eqb_neq in H
         end.

(** Membership in the trace at a leaf of the case analysis. *)
Ltac in_events := cbn; repeat first [ left; reflexivity | right ].

(** Membership in the trace of a concrete run. *)
Ltac in_trace := vm_compute; repeat first [ left; reflexivity | right ].

(** The scripted tool and the small parser as the platform of the
    concrete runs. *)
Abbreviation fake := FakeGit.platform (only parsing).

(** ** The claims, for every platform *)

Section Properties.

Context {platform : Platform}.

(** C1. Whatever the command line, when the repository check exits
    non-zero the script executes no staging, commit, remote-registration
    or push command (the repository check is the only command it runs)
    and exits with status 1. *)
Theorem not_a_repository_no_mutation :
  forall (argv : list string) (w : World),
    inside_work_tree w = false ->
    exit_status (launch argv w) = 1
    /\ executed mutating (events (launch argv w)) = false
    /\ map fst (commands (events (launch argv w))) = [rev_parse_cmd].
Proof.
  intros argv w. unfold exit_status, events.
  run_script; intros H; try discriminate; repeat split; reflexivity.
Qed.

(** C9. The repository check comes before the command line is read:
    for every argument vector, well formed or not, a failing check
    ends the run with status 1, argparse reports nothing, and the whole
    run is the one of the empty command line. *)
Theorem repository_check_precedes_parsing :
  forall (argv : list string) (w : World),
    inside_work_tree w = false ->
    exit_status (launch argv w) = 1
    /\ (forall code, ~ In (ArgparseMessage code) (events (launch argv w)))
    /\ launch argv w = launch [] w.
Proof.
  intros argv w. unfold exit_status, events.
  unfold_script; cbn.
  destruct (subprocess rev_parse_cmd w) as [p w1]; cbn.
  destruct (returncode p =? 0); intros H; try discriminate; cbn.
  repeat split; try reflexivity.
  intros code [Hin | [Hin | []]]; discriminate.
Qed.

(** C10. In [ensure_origin] a non-zero exit of the remote-URL query
    leads to the registration command; when that command succeeds the
    step returns normally, and the step leaves through [sys.exit] only
    with the non-zero status of a registration command that ran after
    a failed query. *)
Theorem remote_query_failure_not_fatal :
  forall (s : state),
    let p := fst (subprocess get_url_cmd (world s)) in
    let q := fst (subprocess remote_add_cmd (snd (subprocess get_url_cmd (world s)))) in
    let r := ensure_origin s in
    (returncode p <> 0 -> In (Exec remote_add_cmd q) (events r))
    /\ (returncode p <> 0 -> returncode q = 0 -> fst r = Normal true)
    /\ (forall code, fst r = SystemExit code ->
          returncode p <> 0 /\ In (Exec remote_add_cmd q) (events r)
          /\ returncode q = code /\ code <> 0).
Proof.
  intros s. unfold events. run_script; tidy;
    repeat split; intros; try congruence; try discriminate;
    try (rewrite !in_app_iff; cbn; tauto);
    try match goal with
        | H : SystemExit _ = SystemExit _ |- _ => inversion H; subst; assumption
        end.
Qed.

(** C4. With [--dry-run] neither a commit nor a push command is
    executed, whatever the staged-changes query and the remote query
    answer.  The staging command still runs once the repository check
    has passed; the remote query still runs once staging and the
    staged-changes query have succeeded; and a remote query that finds
    no remote is still followed by the registration command. *)
Theorem dry_run_skips_commit_and_push :
  forall (argv : list string) (args : Namespace) (w : World),
    parse_args argv = Parsed args ->
    dry_run args = true ->
    executed is_commit (events (launch argv w)) = false
    /\ executed is_push (events (launch argv w)) = false
    /\ (inside_work_tree w = true ->
        executed is_stage (events (launch argv w)) = true)
    /\ (executed_failing is_remote_query (events (launch argv w)) = true ->
        executed is_remote_add (events (launch argv w)) = true)
    /\ (inside_work_tree w = true ->
        executed_failing is_stage (events (launch argv w)) = false ->
        executed_failing is_staged_query (events (launch argv w)) = false ->
        exists p,
          In (Exec get_url_cmd p) (events (launch argv w))
          /\ (returncode p <> 0 ->
              exists q, In (Exec remote_add_cmd q) (events (launch argv w)))).
Proof.
  intros argv args w Hparse Hdry. unfold events.
  run_named; leaf;
    (split; [ reflexivity | ]);
    (split; [ reflexivity | ]);
    (split; [ intros; try discriminate; reflexivity | ]);
    (split; [ intros; try discriminate; reflexivity | ]);
    intros Hinside Hstage Hquery;
    try discriminate Hinside; try discriminate Hstage; try discriminate Hquery;
    eexists;
    (split; [ in_events | intros Hrc; tidy; try contradiction; eexists; in_events ]).
Qed.

(** C7. With [--no-push] no push command is executed, and the run ends
    with status 0 when the repository check passed and no command
    failed fatally before. *)
Theorem no_push_skips_push :
  forall (argv : list string) (args : Namespace) (w : World),
    parse_args argv = Parsed args ->
    no_push args = true ->
    executed is_push (events (launch argv w)) = false
    /\ (inside_work_tree w = true ->
        first_fatal (events (launch argv w)) = None ->
        exit_status (launch argv w) = 0).
Proof.
  intros argv args w Hparse Hno. unfold events, exit_status.
  run_script; leaf; repeat split; intros; try discriminate; reflexivity.
Qed.

(** C8. Every staging command the script executes is [git add -A]
    under [--all] and [git add] of the four configured files otherwise,
    and it is executed once the repository check has passed.  Every
    commit command carries the configured message, and one is executed
    whenever the staged-changes query returns some text outside dry-run
    mode.  The configured message is "Prepare site for GitHub Pages" on
    every command line where no token may select [-m] or [--message]. *)
Theorem stage_and_commit_commands :
  forall (argv : list string) (args : Namespace) (w : World),
    parse_args argv = Parsed args ->
    (forall cmd p, In (Exec cmd p) (events (launch argv w)) ->
       (is_stage cmd = true ->
        cmd = if all args then ["git"; "add"; "-A"]
              else ["git"; "add"; "index.html"; "ask_her_out.html";
                    "schedule.html"; "git.py"])
       /\ (is_commit cmd = true ->
           cmd = ["git"; "commit"; "-m"; message args]))
    /\ (inside_work_tree w = true ->
        executed is_stage (events (launch argv w)) = true)
    /\ (inside_work_tree w = true ->
        exists p,
          In (Exec (if all args then ["git"; "add"; "-A"]
                    else ["git"; "add"; "index.html"; "ask_her_out.html";
                          "schedule.html"; "git.py"]) p)
             (events (launch argv w)))
    /\ (forall text,
          staged_result (events (launch argv w)) = Some text ->
          text <> EmptyString ->
          dry_run args = false ->
          exists p,
            In (Exec ["git"; "commit"; "-m"; message args] p)
               (events (launch argv w)))
    /\ ((forall tok, In tok argv ->
           may_select tok "-m" = false /\ may_select tok "--message" = false) ->
        message args = "Prepare site for GitHub Pages")
    /\ message default_namespace = "Prepare site for GitHub Pages".
Proof.
  intros argv args w Hparse. unfold events.
  split; [ | split; [ | split; [ | split; [ | split; [ | reflexivity ] ] ] ] ].
  - run_named; leaf; intros the_cmd the_p Hin;
      repeat (destruct Hin as [Hin | Hin]; [ inversion Hin; subst; clear Hin | ]);
      try contradiction;
      cbn; split; intros; try discriminate; reflexivity.
  - run_named; leaf; intros; try discriminate; reflexivity.
  - run_named; leaf; intros Hinside; try discriminate Hinside;
      eexists; in_events.
  - run_named; leaf; intros text Hstaged Htext Hdry;
      try discriminate Hstaged; try discriminate Hdry;
      try (inversion Hstaged; subst; contradiction);
      eexists; in_events.
  - intros Hsel.
    apply (parse_args_defaults argv args StoreMessage Hparse).
    intros tok opt Htok Hopt. destruct (Hsel tok Htok) as [Hshort Hlong].
    cbn in Hopt.
    repeat (destruct Hopt as [Hopt | Hopt];
            [ inversion Hopt; subst; assumption | ]).
    contradiction.
Qed.

(** C2, as the script has it. The ensure-remote step asks for the URL
    of the remote named "origin", whatever [--remote] says (the
    configured name is used by the push alone): the query
    [git remote get-url origin] is executed as soon as the steps before
    it have passed.  When the query exits with status 0 no registration
    command is executed and the URL it printed is reported; otherwise a
    remote named "origin" is registered with
    git@github.com:Ravi-Chandra24/Ask-her-Out.git. *)
Theorem ensure_remote_uses_origin :
  forall (argv : list string) (args : Namespace) (w : World),
    parse_args argv = Parsed args ->
    let tr := events (launch argv w) in
    (inside_work_tree w = true ->
     executed_failing is_stage tr = false ->
     executed_failing is_staged_query tr = false ->
     executed_failing is_commit tr = false ->
     exists p,
       In (Exec ["git"; "remote"; "get-url"; "origin"] p) tr
       /\ (returncode p <> 0 ->
           exists q,
             In (Exec ["git"; "remote"; "add"; "origin";
                       "git@github.com:Ravi-Chandra24/Ask-her-Out.git"] q) tr))
    /\ (forall cmd p, In (Exec cmd p) tr ->
         (is_remote_query cmd = true ->
          cmd = ["git"; "remote"; "get-url"; "origin"])
         /\ (is_remote_add cmd = true ->
             cmd = ["git"; "remote"; "add"; "origin";
                    "git@github.com:Ravi-Chandra24/Ask-her-Out.git"]))
    /\ (forall p, In (Exec get_url_cmd p) tr ->
          if returncode p =? 0
          then executed is_remote_add tr = false
               /\ In (Stdout ("origin remote configured: " ++ Py.strip (output p))) tr
          else executed is_remote_add tr = true).
Proof.
  intros argv args w Hparse. cbv zeta. unfold events.
  split; [ | split ].
  - run_named; leaf; intros Hinside Hstage Hquery Hcommit;
      try discriminate Hinside; try discriminate Hstage;
      try discriminate Hquery; try discriminate Hcommit;
      eexists;
      (split; [ in_events | intros Hrc; tidy; try contradiction; eexists; in_events ]).
  - run_named; leaf; intros the_cmd the_p Hin;
      repeat (destruct Hin as [Hin | Hin]; [ inversion Hin; subst; clear Hin | ]);
      try contradiction;
      cbn; split; intros; try discriminate; reflexivity.
  - run_named; leaf; intros the_p Hin; unfold get_url_cmd in Hin;
      repeat (destruct Hin as [Hin | Hin];
              [ try discriminate Hin; inversion Hin; subst; clear Hin | ]);
      try contradiction; leaf;
      first [ reflexivity | split; [ reflexivity | cbn; tauto ] ].
Qed.

(** C5, as the script has it. When the staged-changes query returns an
    empty text, no commit command is executed, the line
    "No staged changes to commit." is printed and the remote query
    runs; unless [--no-push] or [--dry-run] is set the push command is
    executed (once the ensure-remote step has passed), and the run ends
    with status 0 when neither the registration nor the push fails. *)
Theorem empty_staging_skips_commit :
  forall (argv : list string) (args : Namespace) (w : World),
    parse_args argv = Parsed args ->
    let r := launch argv w in
    staged_result (events r) = Some "" ->
    executed is_commit (events r) = false
    /\ In (Stdout "No staged changes to commit.") (events r)
    /\ executed is_remote_query (events r) = true
    /\ (no_push args = false -> dry_run args = false ->
        executed_failing is_remote_add (events r) = false ->
        executed is_push (events r) = true)
    /\ (executed_failing is_remote_add (events r) = false ->
        executed_failing is_push (events r) = false ->
        exit_status r = 0).
Proof.
  intros argv args w Hparse. cbv zeta. unfold events, exit_status.
  run_script; leaf; intros Hstaged; try discriminate;
    repeat split; intros; try discriminate; try reflexivity;
    try (cbn; tauto).
Qed.

(** C6, as the script has it. Every command started through [run]
    (staging, staged-changes query, commit, remote registration, push)
    comes right after the line "$ command" on standard output; the
    repository check and the remote-URL query are started directly and
    no line echoes them. *)
Theorem commands_through_run_are_echoed :
  forall (argv : list string) (w : World),
    echoed direct_call (events (launch argv w))
    /\ ~ In (Stdout (echo rev_parse_cmd)) (events (launch argv w))
    /\ ~ In (Stdout (echo get_url_cmd)) (events (launch argv w)).
Proof.
  intros argv w. unfold events, echoed.
  run_script; leaf; repeat split;
    try (left; reflexivity); try (right; reflexivity);
    intros Hin; repeat (destruct Hin as [Hin | Hin]; try discriminate Hin);
    contradiction.
Qed.

(** C3, as the script has it. The exit status is 1 when the repository
    check fails; inside a repository it is argparse's status when
    argparse ends the run, 0 when no command fails fatally (a non-zero
    remote-URL query is not a failure), and otherwise the status given
    by the first command that fails among staging, staged-changes query,
    commit, remote registration and push: the script passes the non-zero
    return code of that command to [sys.exit], so that the process ends
    with its low eight bits, which is the exit status of the command
    whenever the command exited on its own (a return code in 1..255).
    That failure is reported on standard error, with the captured output
    for the staged-changes query and with the description of the error
    for the others, and nothing happens after the report. *)
Theorem exit_status_of_run :
  forall (argv : list string) (w : World),
    let r := launch argv w in
    (inside_work_tree w = false -> exit_status r = 1 /\ process_status r = 1)
    /\ (inside_work_tree w = true ->
        forall code, parse_args argv = ParserExit code ->
          exit_status r = code
          /\ process_status r = code mod 256
          /\ map fst (commands (events r)) = [rev_parse_cmd])
    /\ (inside_work_tree w = true ->
        forall args, parse_args argv = Parsed args ->
          match first_fatal (events r) with
          | None => exit_status r = 0 /\ process_status r = 0
          | Some (cmd, p, rest) =>
              exit_status r = returncode p
              /\ returncode p <> 0
              /\ process_status r = returncode p mod 256
              /\ (0 <= returncode p < 256 -> process_status r = returncode p)
              /\ rest = [Stderr (failure_report cmd p)]
          end).
Proof.
  intros argv w. cbv zeta.
  unfold process_status, events, exit_status, failure_report.
  run_named; leaf; tidy;
    repeat split; intros; try discriminate; try reflexivity;
    try assumption;
    try (apply Z.mod_small; assumption);
    match goal with
    | H : ParserExit _ = ParserExit _ |- _ => inversion H; reflexivity
    end.
Qed.

End Properties.

(** ** The script on concrete repositories *)

(** Scenario A of the specification: a fresh repository without remote,
    two modified site files, no flag. *)
Example scenario_fresh_repository :
  map fst (commands (events (launch (platform := fake) [] FakeGit.fresh))) =
    [ ["git"; "rev-parse"; "--is-inside-work-tree"];
      ["git"; "add"; "index.html"; "ask_her_out.html"; "schedule.html"; "git.py"];
      ["git"; "diff"; "--cached"; "--name-only"];
      ["git"; "commit"; "-m"; "Prepare site for GitHub Pages"];
      ["git"; "remote"; "get-url"; "origin"];
      ["git"; "remote"; "add"; "origin"; "git@github.com:Ravi-Chandra24/Ask-her-Out.git"];
      ["git"; "push"; "origin"; "main"] ]
  /\ exit_status (launch (platform := fake) [] FakeGit.fresh) = 0.
Proof. split; reflexivity. Qed.

(** Scenario B: nothing modified, [--all]. *)
Example scenario_nothing_to_commit :
  map fst (commands (events (launch (platform := fake) ["--all"] FakeGit.clean))) =
    [ ["git"; "rev-parse"; "--is-inside-work-tree"];
      ["git"; "add"; "-A"];
      ["git"; "diff"; "--cached"; "--name-only"];
      ["git"; "remote"; "get-url"; "origin"];
      ["git"; "push"; "origin"; "main"] ]
  /\ In (Stdout "No staged changes to commit.")
        (events (launch (platform := fake) ["--all"] FakeGit.clean))
  /\ exit_status (launch (platform := fake) ["--all"] FakeGit.clean) = 0.
Proof. repeat split; try reflexivity. cbn. tauto. Qed.

(** Scenario C: the push is refused with status 128. *)
Example scenario_push_refused :
  exit_status (launch (platform := fake) [] (FakeGit.with_push_status FakeGit.fresh 128)) = 128
  /\ last (events (launch (platform := fake) [] (FakeGit.with_push_status FakeGit.fresh 128)))
          (Stdout "") =
     Stderr "Command failed: Command '['git', 'push', 'origin', 'main']' returned non-zero exit status 128.".
Proof. split; reflexivity. Qed.

(** What the small parser makes of some command lines. *)
Example parse_args_examples :
  parse_args (platform := fake) [] = Parsed default_namespace
  /\ parse_args (platform := fake) ["--all"; "-m"; "Update"; "--remote=up"; "--dry-run"] =
     Parsed {| message := "Update"; all := true; no_push := false;
               remote := "up"; branch := "main"; dry_run := true |}
  /\ parse_args (platform := fake) ["--bogus"] = ParserExit 2
  /\ parse_args (platform := fake) ["--remote"] = ParserExit 2
  /\ parse_args (platform := fake) ["index.html"] = ParserExit 2
  /\ parse_args (platform := fake) ["-h"] = ParserExit 0.
Proof. repeat split; reflexivity. Qed.

(** *** C1 *)

Lemma not_a_repository_no_mutation_witness :
  inside_work_tree (platform := fake) FakeGit.outside = false
  /\ exit_status (launch (platform := fake) ["--all"; "--dry-run"] FakeGit.outside) = 1
  /\ executed mutating
       (events (launch (platform := fake) ["--all"; "--dry-run"] FakeGit.outside)) = false
  /\ map fst (commands
       (events (launch (platform := fake) ["--all"; "--dry-run"] FakeGit.outside)))
     = [rev_parse_cmd].
Proof.
  split.
  - reflexivity.
  - apply (not_a_repository_no_mutation (platform := fake)
             ["--all"; "--dry-run"] FakeGit.outside).
    reflexivity.
Defined.

(** *** C9 *)

Lemma repository_check_precedes_parsing_witness :
  parse_args (platform := fake) ["--bogus"; "-m"] = ParserExit 2
  /\ inside_work_tree (platform := fake) FakeGit.outside = false
  /\ exit_status (launch (platform := fake) ["--bogus"; "-m"] FakeGit.outside) = 1
  /\ (forall code,
        ~ In (ArgparseMessage code)
             (events (launch (platform := fake) ["--bogus"; "-m"] FakeGit.outside)))
  /\ launch (platform := fake) ["--bogus"; "-m"] FakeGit.outside
     = launch (platform := fake) [] FakeGit.outside.
Proof.
  split; [ reflexivity | split; [ reflexivity | ] ].
  apply (repository_check_precedes_parsing (platform := fake)
           ["--bogus"; "-m"] FakeGit.outside).
  reflexivity.
Defined.

(** *** C10 *)

Lemma remote_query_failure_not_fatal_witness :
  let s := initial (platform := fake) FakeGit.fresh in
  let s' := initial (platform := fake) (FakeGit.with_remote_add_status FakeGit.fresh 255) in
  returncode (fst (subprocess get_url_cmd (world s))) = 2
  /\ In (Exec remote_add_cmd (FakeGit.ok "")) (events (ensure_origin s))
  /\ fst (ensure_origin s) = Normal true
  /\ fst (ensure_origin s') = SystemExit 255
  /\ In (Exec remote_add_cmd (FakeGit.ko 255 "error: could not lock config file"))
        (events (ensure_origin s')).
Proof.
  intros s s'.
  assert (Hs := remote_query_failure_not_fatal (platform := fake) s).
  assert (Hs' := remote_query_failure_not_fatal (platform := fake) s').
  cbv zeta in Hs, Hs'.
  destruct Hs as [Hadd [Hnormal _]]. destruct Hs' as [_ [_ Hexit]].
  assert (Hquery : returncode (fst (subprocess get_url_cmd (world s))) <> 0)
    by (vm_compute; intro e; discriminate e).
  split; [ reflexivity | ].
  split; [ exact (Hadd Hquery) | ].
  split; [ exact (Hnormal Hquery eq_refl) | ].
  split; [ reflexivity | ].
  exact (proj1 (proj2 (Hexit 255 eq_refl))).
Defined.

(** *** C4 *)

Lemma dry_run_skips_commit_and_push_witness :
  parse_args (platform := fake) ["--dry-run"] = Parsed (store_true StoreTrueDryRun default_namespace)
  /\ dry_run (store_true StoreTrueDryRun default_namespace) = true
  /\ executed is_commit (events (launch (platform := fake) ["--dry-run"] FakeGit.fresh)) = false
  /\ executed is_push (events (launch (platform := fake) ["--dry-run"] FakeGit.fresh)) = false
  /\ executed is_stage (events (launch (platform := fake) ["--dry-run"] FakeGit.fresh)) = true
  /\ executed is_remote_add (events (launch (platform := fake) ["--dry-run"] FakeGit.fresh)) = true
  /\ exists p,
       In (Exec get_url_cmd p) (events (launch (platform := fake) ["--dry-run"] FakeGit.fresh))
       /\ (returncode p <> 0 ->
           exists q,
             In (Exec remote_add_cmd q)
                (events (launch (platform := fake) ["--dry-run"] FakeGit.fresh))).
Proof.
  destruct (dry_run_skips_commit_and_push (platform := fake)
              ["--dry-run"] (store_true StoreTrueDryRun default_namespace)
              FakeGit.fresh eq_refl eq_refl)
    as [Hcommit [Hpush [Hstage [Hremote Hquery]]]].
  split; [ reflexivity | split; [ reflexivity | ] ].
  split; [ exact Hcommit | ].
  split; [ exact Hpush | ].
  split; [ exact (Hstage eq_refl) | ].
  split; [ exact (Hremote eq_refl) | exact (Hquery eq_refl eq_refl eq_refl) ].
Defined.

(** *** C7 *)

Lemma no_push_skips_push_witness :
  parse_args (platform := fake) ["--no-push"] = Parsed (store_true StoreTrueNoPush default_namespace)
  /\ no_push (store_true StoreTrueNoPush default_namespace) = true
  /\ executed is_push (events (launch (platform := fake) ["--no-push"] FakeGit.fresh)) = false
  /\ exit_status (launch (platform := fake) ["--no-push"] FakeGit.fresh) = 0.
Proof.
  destruct (no_push_skips_push (platform := fake)
              ["--no-push"] (store_true StoreTrueNoPush default_namespace)
              FakeGit.fresh eq_refl eq_refl)
    as [Hpush Hstatus].
  split; [ reflexivity | split; [ reflexivity | ] ].
  split; [ exact Hpush | exact (Hstatus eq_refl eq_refl) ].
Defined.

(** *** C8 *)

Lemma stage_and_commit_commands_witness :
  let argv := ["--all"; "-m"; "Update"] in
  let args := {| message := "Update"; all := true; no_push := false;
                 remote := "origin"; branch := "main"; dry_run := false |} in
  let tr := events (launch (platform := fake) argv FakeGit.fresh) in
  parse_args (platform := fake) argv = Parsed args
  /\ (forall cmd p, In (Exec cmd p) tr ->
        (is_stage cmd = true -> cmd = ["git"; "add"; "-A"])
        /\ (is_commit cmd = true -> cmd = ["git"; "commit"; "-m"; "Update"]))
  /\ executed is_stage tr = true
  /\ (exists p, In (Exec ["git"; "add"; "-A"] p) tr)
  /\ staged_result tr = Some ("index.html" ++ Py.nl ++ "schedule.html")
  /\ (exists p, In (Exec ["git"; "commit"; "-m"; "Update"] p) tr)
  /\ parse_args (platform := fake) ["--all"; "--remote"; "upstream"]
     = Parsed {| message := "Prepare site for GitHub Pages"; all := true;
                 no_push := false; remote := "upstream"; branch := "main";
                 dry_run := false |}
  /\ (forall tok, In tok ["--all"; "--remote"; "upstream"] ->
        may_select tok "-m" = false /\ may_select tok "--message" = false).
Proof.
  intros argv args tr.
  destruct (stage_and_commit_commands (platform := fake) argv args FakeGit.fresh eq_refl)
    as [Hcmds [Hstage [Hadd [Hcommit _]]]].
  assert (Hstaged : staged_result tr = Some ("index.html" ++ Py.nl ++ "schedule.html"))
    by (vm_compute; reflexivity).
  assert (Hsel : forall tok, In tok ["--all"; "--remote"; "upstream"] ->
                   may_select tok "-m" = false /\ may_select tok "--message" = false).
  { intros tok [<- | [<- | [<- | []]]]; split; reflexivity. }
  destruct (stage_and_commit_commands (platform := fake)
              ["--all"; "--remote"; "upstream"]
              {| message := "Prepare site for GitHub Pages"; all := true;
                 no_push := false; remote := "upstream"; branch := "main";
                 dry_run := false |}
              FakeGit.fresh eq_refl)
    as [_ [_ [_ [_ [Hdefault _]]]]].
  pose proof (Hdefault Hsel) as Hmessage.
  split; [ reflexivity | ].
  split; [ exact Hcmds | ].
  split; [ exact (Hstage eq_refl) | ].
  split; [ exact (Hadd eq_refl) | ].
  split; [ exact Hstaged | ].
  split; [ apply (Hcommit _ Hstaged); [ discriminate | reflexivity ] | ].
  split; [ reflexivity | exact Hsel ].
Defined.

(** *** C2 *)

(** With [--remote upstream] in a repository without remote, the script
    neither asks for nor registers a remote named "upstream": it asks for
    "origin", registers "origin", and pushes to "upstream". *)
Lemma configured_remote_is_not_ensured :
  let r := launch (platform := fake) ["--remote"; "upstream"] FakeGit.fresh in
  parse_args (platform := fake) ["--remote"; "upstream"] = Parsed (store StoreRemote "upstream" default_namespace)
  /\ ~ (executed (starts_with ["git"; "remote"; "get-url"; "upstream"]) (events r) = true)
  /\ ~ (executed (starts_with ["git"; "remote"; "add"; "upstream"]) (events r) = true)
  /\ map fst (commands (events r)) =
       [ ["git"; "rev-parse"; "--is-inside-work-tree"];
         ["git"; "add"; "index.html"; "ask_her_out.html"; "schedule.html"; "git.py"];
         ["git"; "diff"; "--cached"; "--name-only"];
         ["git"; "commit"; "-m"; "Prepare site for GitHub Pages"];
         ["git"; "remote"; "get-url"; "origin"];
         ["git"; "remote"; "add"; "origin"; "git@github.com:Ravi-Chandra24/Ask-her-Out.git"];
         ["git"; "push"; "upstream"; "main"] ].
Proof.
  intros r. split; [ reflexivity | ].
  split; [ intro H; vm_compute in H; discriminate H | ].
  split; [ intro H; vm_compute in H; discriminate H | reflexivity ].
Qed.

Lemma ensure_remote_uses_origin_witness :
  let argv := ["--remote"; "upstream"] in
  let tr := events (launch (platform := fake) argv FakeGit.fresh) in
  parse_args (platform := fake) argv = Parsed (store StoreRemote "upstream" default_namespace)
  /\ (exists p,
        In (Exec ["git"; "remote"; "get-url"; "origin"] p) tr
        /\ (returncode p <> 0 ->
            exists q,
              In (Exec ["git"; "remote"; "add"; "origin";
                        "git@github.com:Ravi-Chandra24/Ask-her-Out.git"] q) tr))
  /\ (forall cmd p, In (Exec cmd p) tr ->
        (is_remote_query cmd = true -> cmd = ["git"; "remote"; "get-url"; "origin"])
        /\ (is_remote_add cmd = true ->
            cmd = ["git"; "remote"; "add"; "origin";
                   "git@github.com:Ravi-Chandra24/Ask-her-Out.git"]))
  /\ executed is_remote_add tr = true
  /\ (executed is_remote_add (events (launch (platform := fake) [] FakeGit.clean)) = false
      /\ In (Stdout "origin remote configured: git@github.com:Ravi-Chandra24/Ask-her-Out.git")
            (events (launch (platform := fake) [] FakeGit.clean))).
Proof.
  intros argv tr.
  assert (Hfresh := ensure_remote_uses_origin (platform := fake) argv
                      (store StoreRemote "upstream" default_namespace)
                      FakeGit.fresh eq_refl).
  assert (Hclean := ensure_remote_uses_origin (platform := fake) []
                      default_namespace FakeGit.clean eq_refl).
  cbv zeta in Hfresh, Hclean.
  destruct Hfresh as [Hquery [Hnames Habsent]]. destruct Hclean as [_ [_ Hpresent]].
  split; [ reflexivity | ].
  split; [ exact (Hquery eq_refl eq_refl eq_refl eq_refl) | ].
  split; [ exact Hnames | ].
  split.
  - apply (Habsent (FakeGit.ko 2 "error: No such remote")). in_trace.
  - apply (Hpresent (FakeGit.ok ("git@github.com:Ravi-Chandra24/Ask-her-Out.git" ++ Py.nl))).
    in_trace.
Defined.

(** *** C5 *)

(** With [--dry-run] in a clean repository the staged-changes query
    returns nothing, [--no-push] is not set and every command succeeds,
    yet no push command is executed. *)
Lemma empty_staging_dry_run_does_not_push :
  let r := launch (platform := fake) ["--dry-run"] FakeGit.clean in
  parse_args (platform := fake) ["--dry-run"] = Parsed (store_true StoreTrueDryRun default_namespace)
  /\ no_push (store_true StoreTrueDryRun default_namespace) = false
  /\ staged_result (events r) = Some ""
  /\ first_failing_status (events r) = None
  /\ exit_status r = 0
  /\ ~ (executed is_push (events r) = true).
Proof.
  intros r. repeat (split; [ reflexivity | ]).
  intro H; vm_compute in H; discriminate H.
Qed.

Lemma empty_staging_skips_commit_witness :
  let args := store_true StoreTrueAll default_namespace in
  let r := launch (platform := fake) ["--all"] FakeGit.clean in
  parse_args (platform := fake) ["--all"] = Parsed args
  /\ staged_result (events r) = Some ""
  /\ executed is_commit (events r) = false
  /\ In (Stdout "No staged changes to commit.") (events r)
  /\ executed is_remote_query (events r) = true
  /\ executed is_push (events r) = true
  /\ exit_status r = 0.
Proof.
  intros args r.
  assert (H := empty_staging_skips_commit (platform := fake) ["--all"] args
                 FakeGit.clean eq_refl).
  cbv zeta in H.
  destruct (H eq_refl) as [Hcommit [Hline [Hquery [Hpush Hstatus]]]].
  split; [ reflexivity | split; [ reflexivity | ] ].
  split; [ exact Hcommit | ].
  split; [ exact Hline | ].
  split; [ exact Hquery | ].
  split; [ exact (Hpush eq_refl eq_refl eq_refl) | exact (Hstatus eq_refl eq_refl) ].
Defined.

(** *** C6 *)

(** The repository check is the first event of a run: nothing is printed
    before it; and the remote-URL query is not echoed either. *)
Lemma repository_check_is_not_echoed :
  let tr := events (launch (platform := fake) [] FakeGit.fresh) in
  ~ echoed (fun _ => false) tr
  /\ hd_error tr = Some (Exec rev_parse_cmd (FakeGit.ok ("true" ++ Py.nl)))
  /\ ~ In (Stdout "$ git rev-parse --is-inside-work-tree") tr
  /\ ~ In (Stdout "$ git remote get-url origin") tr.
Proof.
  intros tr. split.
  - intros H; vm_compute in H; destruct H as [[Hdirect | Hprev] _]; discriminate.
  - split; [ reflexivity | ].
    split; intro H; vm_compute in H;
      repeat (destruct H as [H | H]; [ discriminate H | ]); exact H.
Qed.

Lemma commands_through_run_are_echoed_witness :
  echoed direct_call (events (launch (platform := fake) ["--all"] FakeGit.fresh))
  /\ ~ In (Stdout (echo rev_parse_cmd))
          (events (launch (platform := fake) ["--all"] FakeGit.fresh))
  /\ ~ In (Stdout (echo get_url_cmd))
          (events (launch (platform := fake) ["--all"] FakeGit.fresh)).
Proof.
  exact (commands_through_run_are_echoed (platform := fake) ["--all"] FakeGit.fresh).
Defined.

(** *** C3 *)

(** Scenario A again: the remote-URL query is the first command that
    exits non-zero, with status 2, and the run ends with status 0.  And
    when the push is refused, the report on standard error is the
    description of the error, not the text the tool printed. *)
Lemma exit_status_is_not_first_failing_status :
  let r := launch (platform := fake) [] FakeGit.fresh in
  let r' := launch (platform := fake) [] (FakeGit.with_push_status FakeGit.fresh 128) in
  inside_work_tree (platform := fake) FakeGit.fresh = true
  /\ first_failing_status (events r) = Some 2
  /\ exit_status r = 0
  /\ ~ (Some (exit_status r) = first_failing_status (events r))
  /\ In (Exec ["git"; "push"; "origin"; "main"] (FakeGit.ko 128 "fatal: could not push"))
        (events r')
  /\ ~ In (Stderr "Command failed: fatal: could not push") (events r').
Proof.
  intros r r'. repeat (split; [ vm_compute; reflexivity | ]).
  split; [ intro H; vm_compute in H; discriminate H | ].
  split; [ in_trace | ].
  intro H; vm_compute in H;
    repeat (destruct H as [H | H]; [ discriminate H | ]); exact H.
Qed.

Lemma exit_status_of_run_witness :
  let w := FakeGit.with_push_status FakeGit.fresh 128 in
  let r := launch (platform := fake) [] w in
  let killed := launch (platform := fake) [] (FakeGit.with_push_status FakeGit.fresh (-9)) in
  (inside_work_tree (platform := fake) FakeGit.outside = false
   /\ exit_status (launch (platform := fake) [] FakeGit.outside) = 1
   /\ process_status (launch (platform := fake) [] FakeGit.outside) = 1)
  /\ (inside_work_tree (platform := fake) FakeGit.fresh = true
      /\ parse_args (platform := fake) ["--bogus"] = ParserExit 2
      /\ exit_status (launch (platform := fake) ["--bogus"] FakeGit.fresh) = 2)
  /\ (inside_work_tree (platform := fake) w = true
      /\ parse_args (platform := fake) [] = Parsed default_namespace
      /\ first_fatal (events r) =
           Some (["git"; "push"; "origin"; "main"],
                 FakeGit.ko 128 "fatal: could not push",
                 [Stderr "Command failed: Command '['git', 'push', 'origin', 'main']' returned non-zero exit status 128."])
      /\ exit_status r = 128
      /\ process_status r = 128)
  /\ (exit_status killed = -9 /\ process_status killed = 247).
Proof.
  intros w r killed.
  assert (Hout := exit_status_of_run (platform := fake) [] FakeGit.outside).
  assert (Hbad := exit_status_of_run (platform := fake) ["--bogus"] FakeGit.fresh).
  assert (Hpush := exit_status_of_run (platform := fake) [] w).
  assert (Hkill := exit_status_of_run (platform := fake) []
                     (FakeGit.with_push_status FakeGit.fresh (-9))).
  cbv zeta in Hout, Hbad, Hpush, Hkill.
  destruct Hout as [Hout _]. destruct Hbad as [_ [Hbad _]].
  destruct Hpush as [_ [_ Hpush]]. destruct Hkill as [_ [_ Hkill]].
  split; [ split; [ reflexivity | exact (Hout eq_refl) ] | ].
  split; [ split; [ reflexivity | split;
            [ reflexivity | exact (proj1 (Hbad eq_refl 2 eq_refl)) ] ] | ].
  assert (H := Hpush eq_refl default_namespace eq_refl).
  assert (H' := Hkill eq_refl default_namespace eq_refl).
  vm_compute in H. vm_compute in H'.
  destruct H as [Hcode [_ [_ [Hsmall _]]]]. destruct H' as [Hcode' [_ [Hlow _]]].
  split.
  - split; [ reflexivity | split; [ reflexivity | split; [ vm_compute; reflexivity | ] ] ].
    split; [ vm_compute; exact Hcode | ].
    vm_compute. apply Hsmall. split; [ discriminate | reflexivity ].
  - split; [ vm_compute; exact Hcode' | vm_compute; exact Hlow ].
Defined.

(** ** Further properties of the script *)

(** *** Stripping *)

Lemma rstrip_idempotent : forall s, Py.rstrip (Py.rstrip s) = Py.rstrip s.
Proof.
  induction s as [| c s IH]; [ reflexivity | ].
  cbn [Py.rstrip]. destruct (Py.rstrip s) as [| a r] eqn:Hr.
  - destruct (Py.isspace c) eqn:Hc; [ reflexivity | ].
    cbn [Py.rstrip]. rewrite Hc. reflexivity.
  - cbn [Py.rstrip]. cbn [Py.rstrip] in IH. rewrite IH. reflexivity.
Qed.

Lemma lstrip_head :
  forall s, Py.lstrip s = EmptyString
            \/ exists c t, Py.lstrip s = String c t /\ Py.isspace c = false.
Proof.
  induction s as [| c s IH]; [ left; reflexivity | ].
  cbn [Py.lstrip]. destruct (Py.isspace c) eqn:Hc; [ exact IH | ].
  right. exists c, s. split; [ reflexivity | exact Hc ].
Qed.

Lemma rstrip_keeps_head :
  forall c t, Py.isspace c = false ->
    exists r, Py.rstrip (String c t) = String c r.
Proof.
  intros c t Hc. cbn [Py.rstrip]. destruct (Py.rstrip t) as [| a r].
  - rewrite Hc. exists EmptyString. reflexivity.
  - exists (String a r). reflexivity.
Qed.

Lemma strip_idempotent : forall s, Py.strip (Py.strip s) = Py.strip s.
Proof.
  intros s. unfold Py.strip.
  destruct (lstrip_head s) as [H | [c [t [H Hc]]]]; rewrite H.
  - reflexivity.
  - destruct (rstrip_keeps_head c t Hc) as [r Hr].
    rewrite Hr. cbn [Py.lstrip]. rewrite Hc. rewrite <- Hr.
    apply rstrip_idempotent.
Qed.

Lemma lstrip_only_whitespace :
  forall s, only_whitespace s = true -> Py.lstrip s = EmptyString.
Proof.
  induction s as [| c s IH]; intros H; [ reflexivity | ].
  cbn in H. apply andb_prop in H. destruct H as [Hc Hs].
  cbn [Py.lstrip]. rewrite Hc. apply IH. exact Hs.
Qed.

Lemma rstrip_empty_only_whitespace :
  forall s, Py.rstrip s = EmptyString -> only_whitespace s = true.
Proof.
  induction s as [| c s IH]; intros H; [ reflexivity | ].
  cbn [Py.rstrip] in H. destruct (Py.rstrip s) as [| a r]; [ | discriminate ].
  destruct (Py.isspace c) eqn:Hc; [ | discriminate ].
  cbn. rewrite Hc. apply IH. reflexivity.
Qed.

Lemma lstrip_suffix_only_whitespace :
  forall s, only_whitespace (Py.lstrip s) = true -> only_whitespace s = true.
Proof.
  induction s as [| c s IH]; intros H; [ reflexivity | ].
  cbn [Py.lstrip] in H. destruct (Py.isspace c) eqn:Hc.
  - cbn. rewrite Hc. apply IH. exact H.
  - cbn in H. rewrite Hc in H. discriminate.
Qed.

(** The text is stripped to nothing exactly when it holds whitespace
    only. *)
Lemma strip_empty_iff :
  forall s, Py.strip s = EmptyString <-> only_whitespace s = true.
Proof.
  intros s. unfold Py.strip. split; intros H.
  - apply lstrip_suffix_only_whitespace. apply rstrip_empty_only_whitespace. exact H.
  - rewrite (lstrip_only_whitespace s H). reflexivity.
Qed.

Section Further.

Context {platform : Platform}.

(** X1. [run] leaves through [sys.exit] exactly when it is asked to
    check and the command exits non-zero, and then with the status of
    the command: with [check=False] it always returns. *)
Theorem run_exits_iff :
  forall (cmd : list string) (check capture : bool) (s : state) (code : Z),
    fst (run cmd check capture s) = SystemExit code
    <-> check = true
        /\ returncode (fst (subprocess cmd (world s))) = code
        /\ code <> 0.
Proof.
  intros cmd check capture s code.
  unfold run, spawn, print, print_stderr, emit, sys_exit, bind, ret.
  cbn. destruct (subprocess cmd (world s)) as [p w]. cbn.
  destruct (returncode p =? 0) eqn:Hrc; cbn.
  - apply Z.eqb_eq in Hrc. split; [ discriminate | ].
    intros [_ [Hcode Hne]]. congruence.
  - apply Z.eqb_neq in Hrc. destruct check; cbn.
    + split.
      * intros H. inversion H; subst. repeat split. exact Hrc.
      * intros [_ [Hcode _]]. rewrite Hcode. reflexivity.
    + split; [ discriminate | ]. intros [H _]. discriminate H.
Qed.

(** X2. The text [run] returns for a captured command carries no
    whitespace at either end: stripping it again changes nothing. *)
Theorem run_returns_stripped_text :
  forall (cmd : list string) (check : bool) (s s' : state) (text : string),
    run cmd check true s = (Normal (Some text), s') ->
    Py.strip text = text.
Proof.
  intros cmd check s s' text.
  unfold run, spawn, print, print_stderr, emit, sys_exit, bind, ret.
  cbn. destruct (subprocess cmd (world s)) as [p w]. cbn.
  destruct (returncode p =? 0); cbn.
  - intros H. inversion H; subst. apply strip_idempotent.
  - destruct check; cbn; discriminate.
Qed.

(** X3. A staged-changes query that prints whitespace only (a bare
    newline, or nothing) counts as nothing staged: no commit command is
    executed and "No staged changes to commit." is printed. *)
Theorem whitespace_only_staging_is_empty :
  forall (argv : list string) (args : Namespace) (w : World),
    parse_args argv = Parsed args ->
    forall p,
      In (Exec diff_cmd p) (events (launch argv w)) ->
      returncode p = 0 ->
      only_whitespace (output p) = true ->
      executed is_commit (events (launch argv w)) = false
      /\ In (Stdout "No staged changes to commit.") (events (launch argv w)).
Proof.
  intros argv args w Hparse. unfold events.
  run_script; leaf; intros q Hin Hrc Hspace; unfold diff_cmd in Hin;
    repeat (destruct Hin as [Hin | Hin];
            [ try discriminate Hin; inversion Hin; subst; clear Hin | ]);
    try contradiction;
    try (apply strip_empty_iff in Hspace; congruence);
    try (tidy; contradiction);
    (split; [ reflexivity | cbn; tauto ]).
Qed.

(** X4. The commands of a run follow the pipeline: repository check,
    staging, staged-changes query, commit, remote query, registration,
    push, each at most once and never out of this order; a run executes
    at most seven commands. *)
Theorem commands_follow_the_pipeline :
  forall (argv : list string) (w : World),
    ascending (ranks (events (launch argv w))) = true
    /\ (length (commands (events (launch argv w))) <= 7)%nat.
Proof.
  intros argv w. unfold events, ranks.
  run_script; leaf; split; solve [ reflexivity | cbn; lia ].
Qed.

(** X5. A commit command is executed only outside dry-run mode and after
    a staged-changes query that returned some text, which is printed
    under "Staged files:". *)
Theorem commit_needs_staged_changes :
  forall (argv : list string) (args : Namespace) (w : World),
    parse_args argv = Parsed args ->
    executed is_commit (events (launch argv w)) = true ->
    dry_run args = false
    /\ exists text,
         staged_result (events (launch argv w)) = Some text
         /\ text <> EmptyString
         /\ In (Stdout ("Staged files:" ++ Py.nl ++ " " ++ text))
               (events (launch argv w)).
Proof.
  intros argv args w Hparse. unfold events.
  run_script; leaf; intros H; try discriminate H;
    (split; [ first [ assumption | reflexivity ] | ]);
    eexists; (split; [ reflexivity | ]);
    (split; [ discriminate | cbn; tauto ]).
Qed.

(** X6. Every push command is [git push] to the configured remote and
    branch; it is executed only when neither [--no-push] nor
    [--dry-run] is set, after the announcement "Pushing to ..." and
    after an ensure-remote step without failure. *)
Theorem push_goes_to_configured_remote :
  forall (argv : list string) (args : Namespace) (w : World),
    parse_args argv = Parsed args ->
    forall cmd p,
      In (Exec cmd p) (events (launch argv w)) ->
      is_push cmd = true ->
      cmd = ["git"; "push"; remote args; branch args]
      /\ no_push args = false
      /\ dry_run args = false
      /\ executed is_remote_query (events (launch argv w)) = true
      /\ executed_failing is_remote_add (events (launch argv w)) = false
      /\ In (Stdout ("Pushing to " ++ remote args ++ " " ++ branch args ++ "..."))
            (events (launch argv w)).
Proof.
  intros argv args w Hparse. unfold events.
  run_script; leaf; intros the_cmd the_p Hin Hpush;
    repeat (destruct Hin as [Hin | Hin]; [ inversion Hin; subst; clear Hin | ]);
    try contradiction; try discriminate Hpush;
    (split; [ reflexivity | ]);
    (split; [ first [ assumption | reflexivity ] | ]);
    (split; [ first [ assumption | reflexivity ] | ]);
    (split; [ reflexivity | ]);
    (split; [ leaf; reflexivity | cbn; tauto ]).
Qed.

End Further.

Section FurtherRuns.

Context {platform : Platform}.

(** X7. The remote and the branch of the command line matter to the
    push alone: under [--no-push], two command lines that agree on the
    message and on the other flags give the same run, event by event. *)
Theorem remote_and_branch_only_for_push :
  forall (argv argv' : list string) (args args' : Namespace) (w : World),
    parse_args argv = Parsed args ->
    parse_args argv' = Parsed args' ->
    message args = message args' ->
    all args = all args' ->
    dry_run args = dry_run args' ->
    no_push args = true ->
    no_push args' = true ->
    launch argv w = launch argv' w.
Proof.
  intros argv argv' args args' w Hparse Hparse' Hm Ha Hd Hn Hn'.
  destruct args as [m a n r b d], args' as [m' a' n' r' b' d'].
  cbn in Hm, Ha, Hd, Hn, Hn'. subst.
  unfold_script. rewrite Hparse, Hparse'.
  cbn [message all no_push remote branch dry_run].
  repeat (light; script_step); reflexivity.
Qed.

(** X8. Inside a repository, a run that ends with status 0 has met no
    fatal failure, has staged, asked for the staged changes and asked
    for the remote, and, unless [--no-push] or [--dry-run] is set, has
    pushed to the configured remote and branch with success. *)
Theorem status_zero_means_done :
  forall (argv : list string) (args : Namespace) (w : World),
    parse_args argv = Parsed args ->
    inside_work_tree w = true ->
    exit_status (launch argv w) = 0 ->
    first_fatal (events (launch argv w)) = None
    /\ executed is_stage (events (launch argv w)) = true
    /\ executed is_staged_query (events (launch argv w)) = true
    /\ executed is_remote_query (events (launch argv w)) = true
    /\ (no_push args = false -> dry_run args = false ->
        exists p, In (Exec ["git"; "push"; remote args; branch args] p)
                     (events (launch argv w))
                  /\ returncode p = 0).
Proof.
  intros argv args w Hparse. unfold events, exit_status.
  run_script; leaf; intros Hin Hstatus; try discriminate Hin;
    try (tidy; contradiction);
    repeat (split; [ reflexivity | ]);
    intros Hn Hd; try discriminate Hn; try discriminate Hd;
    eexists; (split; [ cbn; repeat first [ left; reflexivity | right ] | ]);
    tidy; assumption.
Qed.

(** X9. A command line that argparse refuses, or that asks for the
    help, changes nothing, in a repository or outside: the repository
    check is the only command of the run; inside a repository the run
    ends with argparse's status. *)
Theorem refused_command_line_is_harmless :
  forall (argv : list string) (code : Z) (w : World),
    parse_args argv = ParserExit code ->
    executed mutating (events (launch argv w)) = false
    /\ map fst (commands (events (launch argv w))) = [rev_parse_cmd]
    /\ (inside_work_tree w = true ->
        exit_status (launch argv w) = code
        /\ In (ArgparseMessage code) (events (launch argv w))).
Proof.
  intros argv code w Hparse. unfold events, exit_status.
  run_script; repeat split; intros; try discriminate; try reflexivity;
    cbn; tauto.
Qed.

End FurtherRuns.


Section FurtherOutput.

Context {platform : Platform}.


End FurtherOutput.


(** *** The further properties on concrete runs *)

Lemma run_exits_iff_witness :
  let s := initial (platform := fake) (FakeGit.with_push_status FakeGit.fresh 128) in
  fst (run (platform := fake) ["git"; "push"; "origin"; "main"] true false s)
    = SystemExit 128
  /\ fst (run (platform := fake) ["git"; "push"; "origin"; "main"] false false s)
     <> SystemExit 128.
Proof.
  intros s. split.
  - apply (proj2 (run_exits_iff (platform := fake)
                    ["git"; "push"; "origin"; "main"] true false s 128)).
    repeat split. discriminate.
  - intros H.
    destruct (proj1 (run_exits_iff (platform := fake)
                       ["git"; "push"; "origin"; "main"] false false s 128) H)
      as [Hcheck _].
    discriminate Hcheck.
Defined.

Lemma run_returns_stripped_text_witness :
  let w := FakeGit.with_index FakeGit.fresh [] ["index.html"; "schedule.html"] in
  let r := run (platform := fake) diff_cmd true true (initial (platform := fake) w) in
  r = (Normal (Some ("index.html" ++ Py.nl ++ "schedule.html")), snd r)
  /\ Py.strip ("index.html" ++ Py.nl ++ "schedule.html")
     = "index.html" ++ Py.nl ++ "schedule.html".
Proof.
  intros w r.
  assert (Hr : r = (Normal (Some ("index.html" ++ Py.nl ++ "schedule.html")), snd r))
    by (vm_compute; reflexivity).
  split; [ exact Hr | ].
  exact (run_returns_stripped_text (platform := fake) diff_cmd true
           (initial (platform := fake) w) (snd r) _ Hr).
Defined.

Lemma whitespace_only_staging_is_empty_witness :
  let w := FakeGit.with_index FakeGit.clean [""] [] in
  let tr := events (launch (platform := fake) ["--all"] w) in
  parse_args (platform := fake) ["--all"] = Parsed (store_true StoreTrueAll default_namespace)
  /\ In (Exec diff_cmd (FakeGit.ok Py.nl)) tr
  /\ only_whitespace Py.nl = true
  /\ executed is_commit tr = false
  /\ In (Stdout "No staged changes to commit.") tr.
Proof.
  intros w tr.
  assert (Hin : In (Exec diff_cmd (FakeGit.ok Py.nl)) tr) by in_trace.
  split; [ reflexivity | split; [ exact Hin | split; [ reflexivity | ] ] ].
  exact (whitespace_only_staging_is_empty (platform := fake) ["--all"]
           (store_true StoreTrueAll default_namespace) w eq_refl
           (FakeGit.ok Py.nl) Hin eq_refl eq_refl).
Defined.

Lemma commit_needs_staged_changes_witness :
  let tr := events (launch (platform := fake) [] FakeGit.fresh) in
  parse_args (platform := fake) [] = Parsed default_namespace
  /\ executed is_commit tr = true
  /\ dry_run default_namespace = false
  /\ exists text,
       staged_result tr = Some text
       /\ text <> EmptyString
       /\ In (Stdout ("Staged files:" ++ Py.nl ++ " " ++ text)) tr.
Proof.
  intros tr. split; [ reflexivity | split; [ reflexivity | ] ].
  exact (commit_needs_staged_changes (platform := fake) [] default_namespace
           FakeGit.fresh eq_refl eq_refl).
Defined.

Lemma push_goes_to_configured_remote_witness :
  let argv := ["--remote"; "upstream"; "--branch"; "gh-pages"] in
  let args := {| message := COMMIT_MSG; all := false; no_push := false;
                 remote := "upstream"; branch := "gh-pages"; dry_run := false |} in
  let tr := events (launch (platform := fake) argv FakeGit.fresh) in
  parse_args (platform := fake) argv = Parsed args
  /\ In (Exec ["git"; "push"; "upstream"; "gh-pages"] (FakeGit.ok "")) tr
  /\ executed_failing is_remote_add tr = false
  /\ In (Stdout "Pushing to upstream gh-pages...") tr.
Proof.
  intros argv args tr.
  assert (Hin : In (Exec ["git"; "push"; "upstream"; "gh-pages"] (FakeGit.ok "")) tr)
    by in_trace.
  destruct (push_goes_to_configured_remote (platform := fake) argv args
              FakeGit.fresh eq_refl _ _ Hin eq_refl)
    as [_ [_ [_ [_ [Hadd Hline]]]]].
  split; [ reflexivity | split; [ exact Hin | split; [ exact Hadd | exact Hline ] ] ].
Defined.

Lemma remote_and_branch_only_for_push_witness :
  let argv := ["--no-push"] in
  let argv' := ["--no-push"; "--remote"; "upstream"; "--branch"; "gh-pages"] in
  parse_args (platform := fake) argv = Parsed (store_true StoreTrueNoPush default_namespace)
  /\ parse_args (platform := fake) argv' =
       Parsed {| message := COMMIT_MSG; all := false; no_push := true;
                 remote := "upstream"; branch := "gh-pages"; dry_run := false |}
  /\ launch (platform := fake) argv FakeGit.fresh
     = launch (platform := fake) argv' FakeGit.fresh.
Proof.
  intros argv argv'. split; [ reflexivity | split; [ reflexivity | ] ].
  exact (remote_and_branch_only_for_push (platform := fake) argv argv'
           (store_true StoreTrueNoPush default_namespace)
           {| message := COMMIT_MSG; all := false; no_push := true;
              remote := "upstream"; branch := "gh-pages"; dry_run := false |}
           FakeGit.fresh eq_refl eq_refl eq_refl eq_refl eq_refl eq_refl eq_refl).
Defined.

Lemma status_zero_means_done_witness :
  let r := launch (platform := fake) [] FakeGit.fresh in
  parse_args (platform := fake) [] = Parsed default_namespace
  /\ inside_work_tree (platform := fake) FakeGit.fresh = true
  /\ exit_status r = 0
  /\ first_fatal (events r) = None
  /\ exists p, In (Exec ["git"; "push"; "origin"; "main"] p) (events r)
               /\ returncode p = 0.
Proof.
  intros r.
  destruct (status_zero_means_done (platform := fake) [] default_namespace
              FakeGit.fresh eq_refl eq_refl eq_refl)
    as [Hfatal [_ [_ [_ Hpush]]]].
  split; [ reflexivity | split; [ reflexivity | split; [ reflexivity | ] ] ].
  split; [ exact Hfatal | exact (Hpush eq_refl eq_refl) ].
Defined.

Lemma refused_command_line_is_harmless_witness :
  let r := launch (platform := fake) ["--bogus"] FakeGit.fresh in
  parse_args (platform := fake) ["--bogus"] = ParserExit 2
  /\ inside_work_tree (platform := fake) FakeGit.fresh = true
  /\ executed mutating (events r) = false
  /\ map fst (commands (events r)) = [rev_parse_cmd]
  /\ exit_status r = 2
  /\ In (ArgparseMessage 2) (events r).
Proof.
  intros r.
  destruct (refused_command_line_is_harmless (platform := fake) ["--bogus"] 2
              FakeGit.fresh eq_refl)
    as [Hmut [Hcmds Hstatus]].
  split; [ reflexivity | split; [ reflexivity | ] ].
  split; [ exact Hmut | split; [ exact Hcmds | exact (Hstatus eq_refl) ] ].
Defined.
